(** * SoulSync VoiceMode: text-to-speech requester and WAV persistence

    A shallow embedding of [src/utils/convert_text_to_speech.ts]:
    [convertTextToSpeech], [saveWaveFile] and the demo driver [testTTS].

    Conventions of the embedding.
    - A JavaScript [string] is a Rocq [string]; only emptiness and strict
      equality of strings are observed by the code.
    - A JavaScript [number] holding an integer is a [Z]; fractional, infinite
      and NaN values are outside the model.
    - A [Buffer] is a [list byte].
    - An optional positional parameter is an [option]: [None] stands for an
      omitted (or [undefined]) argument, which selects the declared default.
    - Evaluation that may raise is a [Completion]; the [async] function is a
      resumption ([Async]) that is either settled or suspended on the single
      [await] of the SDK call. *)

From Stdlib Require Import ZArith Lia Ascii String Strings.Byte.
From stdpp Require Import base option list strings gmap.

Local Open Scope string_scope.

(** ** JavaScript values shared by both components *)

Module Js.

Inductive Error : Type :=
| TypeError (message : string)
| RangeError (message : string)
| HostError (message : string).

(** Outcome of evaluating an expression or statement list. *)
Inductive Completion (A : Type) : Type :=
| Normal (value : A)
| Throw (reason : Error).
Arguments Normal {A} value.
Arguments Throw {A} reason.

(** [ToBoolean] on a string: the empty string is the only falsy one. *)
Definition truthy (s : string) : bool :=
  negb (Nat.eqb (String.length s) 0).

(** [a !== b] on strings. *)
Definition strict_neq (a b : string) : bool := negb (String.eqb a b).

(** [xs?.[0]] on an array that is known to be present. *)
Definition first {A : Type} (xs : list A) : option A := head xs.

(** Sequencing of evaluations that may raise. *)
#[export] Instance completion_ret : MRet Completion := @Normal.
#[export] Instance completion_bind : MBind Completion :=
  fun A B f m =>
    match m with
    | Normal a => f a
    | Throw e => Throw e
    end.

(** The byte holding the low eight bits of [n]. *)
Definition octet (n : N) : byte :=
  match Byte.of_N (n mod 256) with
  | Some b => b
  | None => Byte.x00
  end.

End Js.

Export Js.

(** The one runtime primitive the requester calls: [Buffer.from(s, "base64")].
    It belongs to the host platform, so the requester is stated for an
    arbitrary decoder. *)
Class BufferApi : Type :=
  { Buffer_from_base64 : string -> list byte }.

(** ** A reference base64 decoder

    The lenient reading of Node's [Buffer.from(s, "base64")]: the standard
    alphabet, with [-] and [_] accepted for [+] and [/]; whitespace and any
    other character outside the alphabet are skipped; decoding ends at the
    first padding character.  It is used to run the model on concrete
    payloads. *)

Module Base64.

Definition sextet (c : ascii) : option N :=
  let n := N_of_ascii c in
  if (65 <=? n)%N && (n <=? 90)%N then Some (n - 65)%N
  else if (97 <=? n)%N && (n <=? 122)%N then Some (n - 71)%N
  else if (48 <=? n)%N && (n <=? 57)%N then Some (n + 4)%N
  else if (n =? 43)%N || (n =? 45)%N then Some 62%N
  else if (n =? 47)%N || (n =? 95)%N then Some 63%N
  else None.

Definition is_padding (c : ascii) : bool := (N_of_ascii c =? 61)%N.

Fixpoint sextets (s : string) : list N :=
  match s with
  | EmptyString => []
  | String c rest =>
      match sextet c with
      | Some v => v :: sextets rest
      | None => if is_padding c then [] else sextets rest
      end
  end.

Fixpoint group (fuel : nat) (vs : list N) : list byte :=
  match fuel with
  | O => []
  | S fuel' =>
      match vs with
      | a :: b :: c :: d :: rest =>
          let w := (a * 262144 + b * 4096 + c * 64 + d)%N in
          octet (w / 65536) :: octet (w / 256) :: octet w :: group fuel' rest
      | [a; b; c] =>
          let w := (a * 4096 + b * 64 + c)%N in
          [octet (w / 1024); octet (w / 4)]
      | [a; b] => [octet ((a * 64 + b) / 16)]
      | _ => []
      end
  end.

Definition decode (s : string) : list byte :=
  let vs := sextets s in group (S (length vs)) vs.

End Base64.

Definition reference_buffer : BufferApi :=
  {| Buffer_from_base64 := Base64.decode |}.

(** ** The speech requester *)

Module TextToSpeech.

(** *** The SDK's request and response shapes (only what the code touches) *)

Record ClientOptions : Type := { apiKey : string }.

Record GenerateContentParameters : Type :=
  { model : string;
    contents : list (list string);       (* [{ parts: [{ text }] }] *)
    responseModalities : list string;
    voiceName : string }.

Record Blob : Type := { data : option string }.
Record Part : Type := { inlineData : option Blob }.
Record Content : Type := { parts : option (list Part) }.
Record Candidate : Type := { content : option Content }.
Record GenerateContentResponse : Type :=
  { candidates : option (list Candidate) }.

(** What the awaited SDK promise settles to.  [Normal None] is a fulfilled
    promise whose value is [undefined] or [null]. *)
Definition SdkOutcome : Type := Completion (option GenerateContentResponse).

(** *** The result type *)

Record AudioConfig : Type :=
  { channels : Z;
    sampleRate : Z;
    sampleWidth : Z;
    bitDepth : Z;
    voice : string }.

Inductive SpeechResult : Type :=
| Success (audioBase64 : string) (audioBuffer : list byte)
          (audioConfig : AudioConfig)
| Failure (error : string).

(** *** Resumptions: an [async] body with one kind of [await] *)

Inductive Async (A : Type) : Type :=
| Settled (c : Completion A)
| AwaitGenerate (client : ClientOptions) (request : GenerateContentParameters)
                (resume : SdkOutcome -> Async A).
Arguments Settled {A} c.
Arguments AwaitGenerate {A} client request resume.

Definition ret {A : Type} (a : A) : Async A := Settled (Normal a).
Definition throw {A : Type} (e : Error) : Async A := Settled (Throw e).

Fixpoint bind {A B : Type} (m : Async A) (f : A -> Async B) : Async B :=
  match m with
  | Settled (Normal a) => f a
  | Settled (Throw e) => Settled (Throw e)
  | AwaitGenerate c q k => AwaitGenerate c q (fun r => bind (k r) f)
  end.

(** [try { body } catch { handler }]: the caught value is not bound. *)
Fixpoint try_catch {A : Type} (body handler : Async A) : Async A :=
  match body with
  | Settled (Normal a) => Settled (Normal a)
  | Settled (Throw _) => handler
  | AwaitGenerate c q k => AwaitGenerate c q (fun r => try_catch (k r) handler)
  end.

(** [await ai.models.generateContent(request)] on a client built from
    [client]: a rejection is rethrown at the [await]. *)
Definition generateContent (client : ClientOptions)
    (request : GenerateContentParameters)
  : Async (option GenerateContentResponse) :=
  AwaitGenerate client request Settled.

Declare Scope async_scope.
Delimit Scope async_scope with async.
Notation "'let*' x ':=' m 'in' k" := (bind m (fun x => k))
  (at level 10, x name, m at level 100, k at level 200) : async_scope.

(** [response.candidates?.[0]?.content?.parts?.[0]?.inlineData?.data].
    The first access is a plain member access: it raises a [TypeError]
    when [response] is [undefined]; every later link is optional. *)
Definition inline_audio (r : GenerateContentResponse) : option string :=
  cs ← candidates r;
  c ← first cs;
  ct ← content c;
  ps ← parts ct;
  p ← first ps;
  b ← inlineData p;
  data b.

Definition extract_audio (response : option GenerateContentResponse)
  : Async (option string) :=
  match response with
  | None => throw (TypeError "Cannot read properties of undefined")
  | Some r => ret (inline_audio r)
  end.

Definition supported_model : string := "gemini-2.5-flash-preview-tts".

Definition convertTextToSpeech `{BufferApi}
    (GEMINI_API_KEY textMessage : string)
    (modelName outputAudioVoiceName : option string)
    (outputAudioChannels outputAudioRate
     outputAudioSampleWidth outputAudioBitDepth : option Z)
  : Async SpeechResult :=
  let modelName := default "gemini-2.5-flash-preview-tts" modelName in
  let outputAudioVoiceName := default "Zephyr" outputAudioVoiceName in
  let outputAudioChannels := default 1%Z outputAudioChannels in
  let outputAudioRate := default 24000%Z outputAudioRate in
  let outputAudioSampleWidth := default 2%Z outputAudioSampleWidth in
  let outputAudioBitDepth := default 16%Z outputAudioBitDepth in
  try_catch
    (if negb (truthy GEMINI_API_KEY) then
       ret (Failure "Missing keys")
     else if negb (truthy textMessage) then
       ret (Failure "Missing textMessage.")
     else if strict_neq modelName "gemini-2.5-flash-preview-tts" then
       ret (Failure "Internal Server Error, Try again after some time")
     else
       (let* response :=
          generateContent
            {| apiKey := GEMINI_API_KEY |}
            {| model := modelName;
               contents := [[textMessage]];
               responseModalities := ["AUDIO"];
               voiceName := outputAudioVoiceName |} in
        let* data := extract_audio response in
        match data with
        | Some data =>
            if negb (truthy data) then
              ret (Failure "No audio data received from the API.")
            else
              let audioBuffer := Buffer_from_base64 data in
              ret (Success data audioBuffer
                     {| channels := outputAudioChannels;
                        sampleRate := outputAudioRate;
                        sampleWidth := outputAudioSampleWidth;
                        bitDepth := outputAudioBitDepth;
                        voice := outputAudioVoiceName |})
        | None => ret (Failure "No audio data received from the API.")
        end)%async)
    (ret (Failure "Failed to generate audio.")).

(** The request the body sends once validation has passed. *)
Definition request_of (GEMINI_API_KEY textMessage : string)
    (modelName outputAudioVoiceName : option string)
  : ClientOptions * GenerateContentParameters :=
  ({| apiKey := GEMINI_API_KEY |},
   {| model := default supported_model modelName;
      contents := [[textMessage]];
      responseModalities := ["AUDIO"];
      voiceName := default "Zephyr" outputAudioVoiceName |}).

(** The audio configuration the caller asked for. *)
Definition requested_config (outputAudioVoiceName : option string)
    (outputAudioChannels outputAudioRate
     outputAudioSampleWidth outputAudioBitDepth : option Z) : AudioConfig :=
  {| channels := default 1%Z outputAudioChannels;
     sampleRate := default 24000%Z outputAudioRate;
     sampleWidth := default 2%Z outputAudioSampleWidth;
     bitDepth := default 16%Z outputAudioBitDepth;
     voice := default "Zephyr" outputAudioVoiceName |}.

(** The three input checks pass. *)
Definition validated (GEMINI_API_KEY textMessage : string)
    (modelName : option string) : Prop :=
  GEMINI_API_KEY <> "" /\ textMessage <> ""
  /\ default supported_model modelName = supported_model.

(** Some link of [candidates[0].content.parts[0].inlineData.data] is
    missing from the response. *)
Inductive link_absent (r : GenerateContentResponse) : Prop :=
| no_candidates :
    candidates r = None -> link_absent r
| no_first_candidate :
    candidates r = Some [] -> link_absent r
| no_content c cs :
    candidates r = Some (c :: cs) -> content c = None -> link_absent r
| no_parts c cs ct :
    candidates r = Some (c :: cs) -> content c = Some ct ->
    parts ct = None -> link_absent r
| no_first_part c cs ct :
    candidates r = Some (c :: cs) -> content c = Some ct ->
    parts ct = Some [] -> link_absent r
| no_inline_data c cs ct p ps :
    candidates r = Some (c :: cs) -> content c = Some ct ->
    parts ct = Some (p :: ps) -> inlineData p = None -> link_absent r
| no_data c cs ct p ps b :
    candidates r = Some (c :: cs) -> content c = Some ct ->
    parts ct = Some (p :: ps) -> inlineData p = Some b ->
    data b = None -> link_absent r.

(** *** Running a call against the outside world

    The upstream service is the only party with memory: it answers a
    request knowing the requests made so far.  [run] returns the settled
    value of the promise and the requests made. *)

Definition NetCall : Type := ClientOptions * GenerateContentParameters.
Definition Upstream : Type := list NetCall -> NetCall -> SdkOutcome.

Fixpoint run {A : Type} (sdk : Upstream) (history : list NetCall)
    (m : Async A) : Completion A * list NetCall :=
  match m with
  | Settled c => (c, history)
  | AwaitGenerate c q k =>
      run sdk (history ++ [(c, q)]) (k (sdk history (c, q)))
  end.

(** The call settles to the failure [message] and sends nothing. *)
Definition fails_without_call (m : Async SpeechResult) (message : string)
  : Prop :=
  forall (sdk : Upstream) (history : list NetCall),
    run sdk history m = (Normal (Failure message), history).

(** The value the body produces from the settled SDK promise: the part of
    [convertTextToSpeech] after the [await], with the [catch] applied. *)
Definition after_await `{BufferApi} (config : AudioConfig)
    (outcome : SdkOutcome) : SpeechResult :=
  match outcome with
  | Normal (Some response) =>
      match inline_audio response with
      | Some data =>
          if truthy data
          then Success data (Buffer_from_base64 data) config
          else Failure "No audio data received from the API."
      | None => Failure "No audio data received from the API."
      end
  | Normal None | Throw _ => Failure "Failed to generate audio."
  end.

End TextToSpeech.


(** ** The WAV encoder *)

Module Wav.

(** *** Fixed-width little-endian fields *)

Fixpoint le_bytes (width : nat) (v : Z) : list byte :=
  match width with
  | O => []
  | S w => octet (Z.to_N (v mod 256)) :: le_bytes w (v / 256)
  end.

Fixpoint le_value (bs : list byte) : Z :=
  match bs with
  | [] => 0
  | b :: rest => Z.of_N (Byte.to_N b) + 256 * le_value rest
  end.

(** The values an unsigned field of [width] bytes can hold. *)
Definition in_range (width : nat) (v : Z) : bool :=
  (0 <=? v)%Z && (v <? 256 ^ Z.of_nat width)%Z.

(** [buf.writeUIntLE(v, offset, width)] of the host's [Buffer]: a value
    outside [0, 256^width) raises a [RangeError]. *)
Definition writeUIntLE (width : nat) (v : Z) : Completion (list byte) :=
  if in_range width v
  then Normal (le_bytes width v)
  else Throw (RangeError "The value is out of range").

Definition writeUInt16LE : Z -> Completion (list byte) := writeUIntLE 2.
Definition writeUInt32LE : Z -> Completion (list byte) := writeUIntLE 4.

(** [buf.readUIntLE(offset, width)]. *)
Definition readUIntLE (buf : list byte) (offset width : nat) : Z :=
  le_value (take width (drop offset buf)).

Definition slice (buf : list byte) (offset width : nat) : list byte :=
  take width (drop offset buf).

Definition magic (s : string) : list byte := list_byte_of_string s.

(** *** The writer of the [wav] package *)

Record WriterOptions : Type :=
  { channels : Z;
    sampleRate : Z;
    bitDepth : Z }.

(** Modelled from the spec: the header written by [wav.FileWriter], a
    dependency whose code is not part of the repository.  The canonical
    44-byte header: RIFF chunk descriptor, [fmt ] sub-chunk with the PCM
    format code, channel count, sample rate, byte rate, block align and
    bits per sample, then the [data] sub-chunk size.  The writer is given
    the bit depth; the sample width in bytes is one eighth of it.  Data too
    long for the four-byte size fields is refused here; what the package
    stores in that case is outside the model. *)
Definition header (o : WriterOptions) (dataLength : Z)
  : Completion (list byte) :=
  let sampleWidthBytes := (bitDepth o / 8)%Z in
  riffSize ← writeUInt32LE (36 + dataLength);
  fmtSize ← writeUInt32LE 16;
  format ← writeUInt16LE 1;
  nChannels ← writeUInt16LE (channels o);
  rate ← writeUInt32LE (sampleRate o);
  byteRate ← writeUInt32LE (sampleRate o * channels o * sampleWidthBytes);
  blockAlign ← writeUInt16LE (channels o * sampleWidthBytes);
  bitsPerSample ← writeUInt16LE (bitDepth o);
  dataSize ← writeUInt32LE dataLength;
  mret (magic "RIFF" ++ riffSize ++ magic "WAVE"
        ++ magic "fmt " ++ fmtSize ++ format ++ nChannels ++ rate
        ++ byteRate ++ blockAlign ++ bitsPerSample
        ++ magic "data" ++ dataSize)%list.

(** The file system: the bytes stored under each path.  Every path names
    a writable location; failures of the storage itself are outside the
    model.  A stored file is the one on disk once every write of its save
    has landed, and saves are taken one after the other. *)
Abbreviation FileSystem := (gmap string (list byte)).

Record FileWriter : Type :=
  { path : string;
    options : WriterOptions;
    written : list byte }.

(** Modelled from the spec: [new wav.FileWriter(path, options)]. *)
Definition FileWriter_new (filename : string) (o : WriterOptions)
  : FileWriter :=
  {| path := filename; options := o; written := [] |}.

(** Modelled from the spec: [writer.write(chunk)], the PCM bytes are
    passed through verbatim. *)
Definition FileWriter_write (w : FileWriter) (chunk : list byte)
  : FileWriter :=
  {| path := path w; options := options w;
     written := (written w ++ chunk)%list |}.

(** Modelled from the spec: [writer.end()].  The file holds the header,
    whose data size is the number of bytes written, followed by those
    bytes; the writer then emits [finish], or [error] when the header
    cannot be built. *)
Definition FileWriter_end (w : FileWriter) (fs : FileSystem)
  : Completion unit * FileSystem :=
  match header (options w) (Z.of_nat (length (written w))) with
  | Normal h => (Normal tt, <[path w := (h ++ written w)%list]> fs)
  | Throw e => (Throw e, fs)
  end.

(** *** [saveWaveFile]

    The returned promise resolves on [finish] ([Normal tt]) and rejects
    on [error] ([Throw]). *)
Definition saveWaveFile (filename : string) (pcmData : list byte)
    (channels rate sampleWidth : option Z) (fs : FileSystem)
  : Completion unit * FileSystem :=
  let channels := default 1%Z channels in
  let rate := default 24000%Z rate in
  let sampleWidth := default 2%Z sampleWidth in
  let writer :=
    FileWriter_new filename
      {| channels := channels;
         sampleRate := rate;
         bitDepth := sampleWidth * 8 |} in
  let writer := FileWriter_write writer pcmData in
  FileWriter_end writer fs.

(** *** Reading a header back *)

Definition riff_size (file : list byte) : Z := readUIntLE file 4 4.
Definition fmt_size (file : list byte) : Z := readUIntLE file 16 4.
Definition audio_format (file : list byte) : Z := readUIntLE file 20 2.
Definition num_channels (file : list byte) : Z := readUIntLE file 22 2.
Definition sample_rate (file : list byte) : Z := readUIntLE file 24 4.
Definition byte_rate (file : list byte) : Z := readUIntLE file 28 4.
Definition block_align (file : list byte) : Z := readUIntLE file 32 2.
Definition bits_per_sample (file : list byte) : Z := readUIntLE file 34 2.
Definition data_size (file : list byte) : Z := readUIntLE file 40 4.

(** The four chunk tags of a canonical PCM header are in place. *)
Definition tagged (file : list byte) : Prop :=
  slice file 0 4 = magic "RIFF" /\ slice file 8 4 = magic "WAVE"
  /\ slice file 12 4 = magic "fmt " /\ slice file 36 4 = magic "data".

(** A canonical PCM WAV file for the given samples and format. *)
Record canonical (file pcm : list byte) (channels rate sampleWidth : Z)
  : Prop :=
  { file_length : length file = (44 + length pcm)%nat;
    file_tags : tagged file;
    file_riff_size : riff_size file = (36 + Z.of_nat (length pcm))%Z;
    file_fmt_size : fmt_size file = 16%Z;
    file_format : audio_format file = 1%Z;
    file_channels : num_channels file = channels;
    file_sample_rate : sample_rate file = rate;
    file_byte_rate : byte_rate file = (rate * channels * sampleWidth)%Z;
    file_block_align : block_align file = (channels * sampleWidth)%Z;
    file_bits : bits_per_sample file = (sampleWidth * 8)%Z;
    file_data_size : data_size file = Z.of_nat (length pcm);
    file_samples : drop 44 file = pcm }.



(** Every field of the header is wide enough for its value. *)
Definition fits (channels rate sampleWidth : Z) (dataLength : nat) : Prop :=
  (0 <= channels <= 65535 /\ 0 <= rate <= 4294967295
   /\ 0 <= sampleWidth /\ sampleWidth * 8 <= 65535
   /\ channels * sampleWidth <= 65535
   /\ rate * channels * sampleWidth <= 4294967295
   /\ 36 + Z.of_nat dataLength <= 4294967295)%Z.

(** The range checks made while the header is built. *)
Definition header_in_range (o : WriterOptions) (dataLength : Z) : bool :=
  in_range 4 (36 + dataLength) && in_range 2 (channels o)
  && in_range 4 (sampleRate o)
  && in_range 4 (sampleRate o * channels o * (bitDepth o / 8))
  && in_range 2 (channels o * (bitDepth o / 8))
  && in_range 2 (bitDepth o) && in_range 4 dataLength.

(** The bytes of the header when every field fits. *)
Definition header_bytes (o : WriterOptions) (dataLength : Z) : list byte :=
  (magic "RIFF" ++ le_bytes 4 (36 + dataLength) ++ magic "WAVE"
   ++ magic "fmt " ++ le_bytes 4 16 ++ le_bytes 2 1
   ++ le_bytes 2 (channels o) ++ le_bytes 4 (sampleRate o)
   ++ le_bytes 4 (sampleRate o * channels o * (bitDepth o / 8))
   ++ le_bytes 2 (channels o * (bitDepth o / 8))
   ++ le_bytes 2 (bitDepth o)
   ++ magic "data" ++ le_bytes 4 dataLength)%list.

End Wav.

(** ** The demo driver *)

Module Demo.
Import TextToSpeech Wav.

(** The [if (result.success) ... else ...] of [testTTS]; console output is
    not modelled. *)
Definition save_result (fileName : string) (result : SpeechResult)
    (fs : FileSystem) : Completion unit * FileSystem :=
  match result with
  | Success _ audioBuffer audioConfig =>
      saveWaveFile fileName audioBuffer
        (Some (TextToSpeech.channels audioConfig))
        (Some (TextToSpeech.sampleRate audioConfig))
        (Some (sampleWidth audioConfig))
        fs
  | Failure _ => (Normal tt, fs)
  end.

(** [testTTS()], with the environment's [GEMINI_API_KEY] as argument. *)
Definition testTTS `{BufferApi} (env_GEMINI_API_KEY : option string)
    (sdk : Upstream) (fs : FileSystem)
  : Completion unit * FileSystem :=
  let key :=
    match env_GEMINI_API_KEY with
    | Some k => if truthy k then k else ""
    | None => ""
    end in
  match fst (run sdk []
               (convertTextToSpeech key "kya kar rhi ho meenakshi"
                  None None None None None None)) with
  | Normal result => save_result "test_output.wav" result fs
  | Throw e => (Throw e, fs)
  end.

(** The same configuration with another descriptive bit depth. *)
Definition with_bitDepth (config : AudioConfig) (depth : Z) : AudioConfig :=
  {| TextToSpeech.channels := TextToSpeech.channels config;
     TextToSpeech.sampleRate := TextToSpeech.sampleRate config;
     sampleWidth := sampleWidth config;
     TextToSpeech.bitDepth := depth;
     voice := voice config |}.

End Demo.

(** ** Concrete worlds on which the model is run *)

Module Fixtures.
Import TextToSpeech.

(** An upstream that gives the same answer to every request. *)
Definition answering (outcome : SdkOutcome) : Upstream :=
  fun _ _ => outcome.

(** A response whose first candidate's first part has inline data with
    the given [data] member. *)
Definition response_with (payload : option string)
  : GenerateContentResponse :=
  let part := {| inlineData := Some {| data := payload |} |} in
  let candidate := {| content := Some {| parts := Some [part] |} |} in
  {| candidates := Some [candidate] |}.

(** A response without candidates. *)
Definition blocked_response : GenerateContentResponse :=
  {| candidates := None |}.

(** The demo's call: key and text, every other argument omitted. *)
Definition demo_call (key : string) : Async SpeechResult :=
  @convertTextToSpeech reference_buffer key "kya kar rhi ho meenakshi"
    None None None None None None.

Definition demo_request (key : string) : NetCall :=
  request_of key "kya kar rhi ho meenakshi" None None.

Definition demo_config : AudioConfig :=
  requested_config None None None None None.

End Fixtures.


(** * Facts about the encoder *)
Import TextToSpeech Wav.
Local Open Scope Z_scope.
Local Open Scope list_scope.

Example decode_hello :
  Base64.decode "SGVsbG8=" = ["H"; "e"; "l"; "l"; "o"]%byte.
Proof. reflexivity. Qed.

Example decode_two_octets : Base64.decode "SGk=" = ["H"; "i"]%byte.
Proof. reflexivity. Qed.

Example decode_skips_whitespace :
  Base64.decode "SG Vs bG8=" = ["H"; "e"; "l"; "l"; "o"]%byte.
Proof. reflexivity. Qed.

Example decode_url_alphabet : Base64.decode "-_-_" = Base64.decode "+/+/".
Proof. reflexivity. Qed.

Lemma octet_to_N (n : N) : Byte.to_N (octet n) = (n mod 256)%N.
Proof.
  unfold octet.
  destruct (Byte.of_N (n mod 256)) as [b|] eqn:E.
  - now apply Byte.to_of_N in E.
  - apply Byte.of_N_None_iff in E.
    pose proof (N.mod_upper_bound n 256). lia.
Qed.

Lemma le_value_le_bytes (width : nat) :
  forall v, 0 <= v < 256 ^ Z.of_nat width -> le_value (le_bytes width v) = v.
Proof.
  induction width as [|w IH]; intros v Hv.
  - cbn in *. lia.
  - cbn [le_bytes le_value].
    rewrite octet_to_N.
    assert (Hm : 0 <= v mod 256 < 256) by (apply Z.mod_pos_bound; lia).
    rewrite N.mod_small by lia.
    rewrite Z2N.id by lia.
    rewrite IH.
    + pose proof (Z.div_mod v 256). lia.
    + rewrite Nat2Z.inj_succ, Z.pow_succ_r in Hv by lia.
      split; [apply Z.div_pos; lia | apply Z.div_lt_upper_bound; lia].
Qed.

Lemma le_value_bound (bs : list byte) :
  0 <= le_value bs < 256 ^ Z.of_nat (length bs).
Proof.
  induction bs as [|b rest IH].
  - cbn. lia.
  - cbn [le_value length]. rewrite Nat2Z.inj_succ, Z.pow_succ_r by lia.
    pose proof (Byte.to_N_bounded b). lia.
Qed.

Lemma readUIntLE_bound (file : list byte) (offset width : nat) :
  0 <= readUIntLE file offset width < 256 ^ Z.of_nat width.
Proof.
  unfold readUIntLE.
  pose proof (le_value_bound (take width (drop offset file))) as Hb.
  assert (Hlen : (length (take width (drop offset file)) <= width)%nat)
    by (rewrite length_take; lia).
  assert (256 ^ Z.of_nat (length (take width (drop offset file)))
          <= 256 ^ Z.of_nat width) by (apply Z.pow_le_mono_r; lia).
  lia.
Qed.

(** Whatever is stored, the channel field of a file reads below 65536. *)
Lemma num_channels_bound (file : list byte) :
  0 <= num_channels file < 65536.
Proof. apply (readUIntLE_bound file 22 2). Qed.

Lemma in_range_true (width : nat) (v : Z) :
  0 <= v < 256 ^ Z.of_nat width -> in_range width v = true.
Proof. unfold in_range. intros Hv. apply andb_true_intro. lia. Qed.

Lemma writeUIntLE_fits (width : nat) (v : Z) :
  0 <= v < 256 ^ Z.of_nat width ->
  writeUIntLE width v = Normal (le_bytes width v).
Proof. intros Hv. unfold writeUIntLE. now rewrite in_range_true. Qed.

Lemma header_eq (o : WriterOptions) (n : Z) :
  header o n
  = if header_in_range o n then Normal (header_bytes o n)
    else Throw (RangeError "The value is out of range").
Proof.
  unfold header, header_in_range, header_bytes, writeUInt16LE, writeUInt32LE,
    writeUIntLE.
  repeat match goal with
         | |- context [in_range ?k ?v] => destruct (in_range k v); cbn
         end; reflexivity.
Qed.

Lemma fits_in_range (c r w : Z) (n : nat) :
  fits c r w n <->
  header_in_range {| channels := c; sampleRate := r; bitDepth := w * 8 |}
    (Z.of_nat n) = true.
Proof.
  unfold fits, header_in_range, in_range. cbn [channels sampleRate bitDepth].
  rewrite Z.div_mul by lia.
  rewrite !andb_true_iff, !Z.leb_le, !Z.ltb_lt.
  change (256 ^ Z.of_nat 2) with 65536.
  change (256 ^ Z.of_nat 4) with 4294967296.
  split.
  - intros (Hc & Hr & Hw & Hb & Ha & Hbr & Hn).
    assert (0 <= c * w) by nia. assert (0 <= r * c * w) by nia. lia.
  - intros Hall. repeat split; lia.
Qed.

Lemma saveWaveFile_eq (filename : string) (pcm : list byte)
    (channels rate sampleWidth : option Z) (fs : FileSystem) :
  let o := {| channels := default 1 channels;
              sampleRate := default 24000 rate;
              bitDepth := default 2 sampleWidth * 8 |} in
  saveWaveFile filename pcm channels rate sampleWidth fs
  = if header_in_range o (Z.of_nat (length pcm))
    then (Normal tt,
          <[filename := header_bytes o (Z.of_nat (length pcm)) ++ pcm]> fs)
    else (Throw (RangeError "The value is out of range"), fs).
Proof.
  unfold saveWaveFile, FileWriter_end, FileWriter_write, FileWriter_new.
  cbn [path options written app]. rewrite header_eq.
  now destruct (header_in_range _ _).
Qed.

Lemma read_field (width : nat) (v : Z) (file : list byte) (offset : nat) :
  0 <= v < 256 ^ Z.of_nat width ->
  take width (drop offset file) = le_bytes width v ->
  readUIntLE file offset width = v.
Proof.
  intros Hv Hf. unfold readUIntLE. rewrite Hf. now apply le_value_le_bytes.
Qed.

Lemma header_bytes_canonical (c r w : Z) (pcm : list byte) :
  fits c r w (length pcm) ->
  canonical
    (header_bytes {| channels := c; sampleRate := r; bitDepth := w * 8 |}
       (Z.of_nat (length pcm)) ++ pcm)
    pcm c r w.
Proof.
  intros (Hc & Hr & Hw & Hb & Ha & Hbr & Hn).
  assert (0 <= c * w) by nia.
  assert (0 <= r * c * w) by nia.
  unfold header_bytes. cbn [channels sampleRate bitDepth].
  rewrite Z.div_mul by lia.
  split.
  - reflexivity.
  - repeat split; reflexivity.
  - apply read_field; [cbn; lia | reflexivity].
  - apply read_field; [cbn; lia | reflexivity].
  - apply read_field; [cbn; lia | reflexivity].
  - apply read_field; [cbn; lia | reflexivity].
  - apply read_field; [cbn; lia | reflexivity].
  - apply read_field; [cbn; lia | reflexivity].
  - apply read_field; [cbn; lia | reflexivity].
  - apply read_field; [cbn; lia | reflexivity].
  - apply read_field; [cbn; lia | reflexivity].
  - reflexivity.
Qed.









Section BitDepth.
Import Demo.
Variables (fileName audioBase64 : string) (audioBuffer : list byte).
Variable config : AudioConfig.

(** C7.  The encoding never looks at the [bitDepth] carried in the audio
    configuration: a result is saved identically whatever bit depth it
    carries, consistent with the sample width or not, and the
    bits-per-sample field of a file that gets written is the sample width
    times 8. *)
Theorem bit_depth_is_not_encoded (depth : Z) (fs : FileSystem) :
  save_result fileName
    (Success audioBase64 audioBuffer (with_bitDepth config depth)) fs
  = save_result fileName (Success audioBase64 audioBuffer config) fs
  /\ forall fs',
      save_result fileName
        (Success audioBase64 audioBuffer (with_bitDepth config depth)) fs
      = (Normal tt, fs') ->
      exists file,
        fs' !! fileName = Some file
        /\ bits_per_sample file = sampleWidth config * 8.
Proof.
  split; [reflexivity|].
  intros fs'. cbn [save_result with_bitDepth TextToSpeech.channels
    TextToSpeech.sampleRate TextToSpeech.sampleWidth].
  rewrite saveWaveFile_eq. cbv zeta. cbn [default].
  destruct (header_in_range _ _) eqn:Hrange; [|discriminate].
  intros [= <-]. eexists. split; [apply lookup_insert_eq|].
  apply fits_in_range in Hrange.
  apply (file_bits _ _ _ _ _ (header_bytes_canonical _ _ _ _ Hrange)).
Qed.

End BitDepth.

Lemma bit_depth_is_not_encoded_witness :
  exists file,
    (Demo.save_result "test_output.wav"
       (Success "SGk=" ["H"; "i"]%byte
          (Demo.with_bitDepth Fixtures.demo_config 24)) ∅).2
    !! "test_output.wav" = Some file
    /\ bits_per_sample file = 16.
Proof.
  destruct (bit_depth_is_not_encoded "test_output.wav" "SGk="
              ["H"; "i"]%byte Fixtures.demo_config 24 ∅) as [_ Hbits].
  apply (Hbits _). vm_compute. reflexivity.
Defined.

(** * The speech requester *)

Lemma truthy_false (s : string) : truthy s = false <-> s = "".
Proof. destruct s; cbn; split; intros; congruence. Qed.

Lemma truthy_true (s : string) : truthy s = true <-> s <> "".
Proof. destruct s; cbn; split; intros; congruence. Qed.

Lemma strict_neq_false (a b : string) : strict_neq a b = false <-> a = b.
Proof.
  unfold strict_neq. destruct (String.eqb_spec a b); cbn; split; congruence.
Qed.

Lemma strict_neq_true (a b : string) : strict_neq a b = true <-> a <> b.
Proof.
  unfold strict_neq. destruct (String.eqb_spec a b); cbn; split; congruence.
Qed.

Lemma inline_audio_none (r : GenerateContentResponse) :
  inline_audio r = None <-> link_absent r.
Proof.
  unfold inline_audio, first. split.
  - destruct (candidates r) as [[|c cs]|] eqn:Hcs; cbn;
    [intros _; now apply no_first_candidate|
    |intros _; now apply no_candidates].
    destruct (content c) as [ct|] eqn:Hct; cbn;
      [|intros _; now apply (no_content r c cs)].
    destruct (parts ct) as [[|p ps]|] eqn:Hps; cbn;
      [intros _; now apply (no_first_part r c cs ct)|
      |intros _; now apply (no_parts r c cs ct)].
    destruct (inlineData p) as [b|] eqn:Hb; cbn;
      [|intros _; now apply (no_inline_data r c cs ct p ps)].
    intros Hd. now apply (no_data r c cs ct p ps b).
  - intros [Hcs|Hcs|c cs Hcs Hct|c cs ct Hcs Hct Hps|c cs ct Hcs Hct Hps
           |c cs ct p ps Hcs Hct Hps Hb|c cs ct p ps b Hcs Hct Hps Hb Hd];
      rewrite Hcs; cbn; try reflexivity;
      rewrite Hct; cbn; try reflexivity;
      rewrite Hps; cbn; try reflexivity;
      rewrite Hb; cbn; try reflexivity; exact Hd.
Qed.

Section Requester.
Context `{BufferApi}.
Variables (GEMINI_API_KEY textMessage : string).
Variables (modelName outputAudioVoiceName : option string).
Variables (outputAudioChannels outputAudioRate : option Z).
Variables (outputAudioSampleWidth outputAudioBitDepth : option Z).

Local Abbreviation call :=
  (convertTextToSpeech GEMINI_API_KEY textMessage modelName
     outputAudioVoiceName outputAudioChannels outputAudioRate
     outputAudioSampleWidth outputAudioBitDepth).
Local Abbreviation request :=
  (request_of GEMINI_API_KEY textMessage modelName outputAudioVoiceName).
Local Abbreviation config :=
  (requested_config outputAudioVoiceName outputAudioChannels outputAudioRate
     outputAudioSampleWidth outputAudioBitDepth).

Lemma call_missing_key :
  GEMINI_API_KEY = "" -> call = Settled (Normal (Failure "Missing keys")).
Proof. intros ->. reflexivity. Qed.

Lemma call_missing_text :
  GEMINI_API_KEY <> "" -> textMessage = "" ->
  call = Settled (Normal (Failure "Missing textMessage.")).
Proof.
  intros Hkey ->. apply truthy_true in Hkey.
  unfold convertTextToSpeech. rewrite Hkey. reflexivity.
Qed.

Lemma call_unsupported_model :
  GEMINI_API_KEY <> "" -> textMessage <> "" ->
  default supported_model modelName <> supported_model ->
  call
  = Settled
      (Normal (Failure "Internal Server Error, Try again after some time")).
Proof.
  intros Hkey Htext Hmodel.
  apply truthy_true in Hkey. apply truthy_true in Htext.
  apply strict_neq_true in Hmodel.
  unfold convertTextToSpeech. rewrite Hkey, Htext. cbn [negb].
  unfold supported_model in Hmodel. rewrite Hmodel. reflexivity.
Qed.

Lemma call_validated :
  validated GEMINI_API_KEY textMessage modelName ->
  exists k,
    call = AwaitGenerate (fst request) (snd request) k
    /\ forall outcome,
        k outcome = Settled (Normal (after_await config outcome)).
Proof.
  intros (Hkey & Htext & Hmodel).
  apply truthy_true in Hkey. apply truthy_true in Htext.
  pose proof Hmodel as Hneq. apply strict_neq_false in Hneq.
  unfold convertTextToSpeech. rewrite Hkey, Htext. cbn [negb].
  unfold supported_model in Hneq. rewrite Hneq.
  eexists. split; [reflexivity|].
  intros [[response|]|e]; cbn; try reflexivity.
  destruct (inline_audio response) as [d|]; cbn; [|reflexivity].
  destruct (truthy d); reflexivity.
Qed.

Lemma run_validated (sdk : Upstream) (history : list NetCall) :
  validated GEMINI_API_KEY textMessage modelName ->
  run sdk history call
  = (Normal (after_await config (sdk history request)),
     history ++ [request]).
Proof.
  intros Hvalid. destruct (call_validated Hvalid) as (k & -> & Hk).
  cbn [run]. rewrite Hk. reflexivity.
Qed.

Lemma validated_dec :
  GEMINI_API_KEY = "" \/ (GEMINI_API_KEY <> "" /\ textMessage = "")
  \/ (GEMINI_API_KEY <> "" /\ textMessage <> ""
      /\ default supported_model modelName <> supported_model)
  \/ validated GEMINI_API_KEY textMessage modelName.
Proof.
  unfold validated.
  destruct (decide (GEMINI_API_KEY = "")); [now left|].
  destruct (decide (textMessage = "")); [right; now left|].
  destruct (decide (default supported_model modelName = supported_model));
    [right; right; now right|right; right; now left].
Qed.

(** C2.  The inputs are checked in the order API key, text, model, the
    first failing check deciding the result: an empty key gives "Missing
    keys" whatever the text and the model are, a key with an empty text
    gives "Missing textMessage.", and key and text with a model other than
    the supported one give the generic retry message; in each case the
    call settles without sending a request. *)
Theorem validation_short_circuits :
  (GEMINI_API_KEY = "" -> fails_without_call call "Missing keys")
  /\ (GEMINI_API_KEY <> "" -> textMessage = "" ->
      fails_without_call call "Missing textMessage.")
  /\ (GEMINI_API_KEY <> "" -> textMessage <> "" ->
      default supported_model modelName <> supported_model ->
      fails_without_call call
        "Internal Server Error, Try again after some time").
Proof.
  unfold fails_without_call. repeat split.
  - intros Hkey sdk history. now rewrite call_missing_key.
  - intros Hkey Htext sdk history. now rewrite call_missing_text.
  - intros Hkey Htext Hmodel sdk history.
    now rewrite call_unsupported_model.
Qed.


(** C4.  Every call settles normally with a tagged result, whatever the
    arguments and whatever the upstream does; for a validated call, a
    rejected SDK promise and a response that cannot be read both give the
    failure "Failed to generate audio.", the raised value being dropped. *)
Theorem never_throws (sdk : Upstream) (history : list NetCall) :
  (exists result, fst (run sdk history call) = Normal result)
  /\ (validated GEMINI_API_KEY textMessage modelName ->
      forall reason, sdk history request = Throw reason ->
      fst (run sdk history call)
      = Normal (Failure "Failed to generate audio."))
  /\ (validated GEMINI_API_KEY textMessage modelName ->
      sdk history request = Normal None ->
      fst (run sdk history call)
      = Normal (Failure "Failed to generate audio.")).
Proof.
  repeat split.
  - destruct validated_dec as [Hk|[[Hk Ht]|[(Hk & Ht & Hm)|Hvalid]]].
    + rewrite call_missing_key by assumption. now eexists.
    + rewrite call_missing_text by assumption. now eexists.
    + rewrite call_unsupported_model by assumption. now eexists.
    + rewrite run_validated by assumption. now eexists.
  - intros Hvalid reason Hsdk. rewrite run_validated by assumption.
    cbn [fst]. now rewrite Hsdk.
  - intros Hvalid Hsdk. rewrite run_validated by assumption.
    cbn [fst]. now rewrite Hsdk.
Qed.

(** C5.  The audio configuration of a success result is the caller's
    own: channels, sample rate, sample width, bit depth and voice are the
    arguments of the call (the declared default where one was omitted),
    and nothing in it comes from the upstream response. *)
Theorem config_echoes_arguments (sdk : Upstream) (history : list NetCall)
    (audioBase64 : string) (audioBuffer : list byte)
    (audioConfig : AudioConfig) :
  fst (run sdk history call)
  = Normal (Success audioBase64 audioBuffer audioConfig) ->
  audioConfig
  = {| TextToSpeech.channels := default 1 outputAudioChannels;
       TextToSpeech.sampleRate := default 24000 outputAudioRate;
       TextToSpeech.sampleWidth := default 2 outputAudioSampleWidth;
       TextToSpeech.bitDepth := default 16 outputAudioBitDepth;
       voice := default "Zephyr" outputAudioVoiceName |}.
Proof.
  destruct validated_dec as [Hk|[[Hk Ht]|[(Hk & Ht & Hm)|Hvalid]]].
  - now rewrite call_missing_key.
  - now rewrite call_missing_text.
  - now rewrite call_unsupported_model.
  - rewrite run_validated by assumption. cbn [fst].
    destruct (sdk history request) as [[response|]|reason];
      cbn [after_await]; try discriminate.
    destruct (inline_audio response) as [d|]; [|discriminate].
    destruct (truthy d); [|discriminate].
    now intros [= _ _ <-].
Qed.

(** C6.  A validated call whose response lacks the inline audio payload
    (the candidates, the first candidate, its content, the parts, the
    first part, its inline data or the data itself is absent) fails with
    "No audio data received from the API.". *)
Theorem absent_payload_fails (sdk : Upstream) (history : list NetCall)
    (response : GenerateContentResponse) :
  validated GEMINI_API_KEY textMessage modelName ->
  sdk history request = Normal (Some response) ->
  link_absent response ->
  fst (run sdk history call)
  = Normal (Failure "No audio data received from the API.").
Proof.
  intros Hvalid Hsdk Habsent. apply inline_audio_none in Habsent.
  rewrite run_validated by assumption. cbn [fst].
  rewrite Hsdk. cbn [after_await]. now rewrite Habsent.
Qed.

(** C10.  A payload that is present but empty is treated as an absent
    one: the validated call fails with "No audio data received from the
    API."; hence the [audioBase64] of a success result is never empty. *)
Theorem empty_payload_fails (sdk : Upstream) (history : list NetCall) :
  (forall response,
      validated GEMINI_API_KEY textMessage modelName ->
      sdk history request = Normal (Some response) ->
      inline_audio response = Some "" ->
      fst (run sdk history call)
      = Normal (Failure "No audio data received from the API."))
  /\ (forall audioBase64 audioBuffer audioConfig,
        fst (run sdk history call)
        = Normal (Success audioBase64 audioBuffer audioConfig) ->
        audioBase64 <> "").
Proof.
  split.
  - intros response Hvalid Hsdk Hpayload.
    rewrite run_validated by assumption. cbn [fst].
    rewrite Hsdk. cbn [after_await]. now rewrite Hpayload.
  - intros b64 buf cfg.
    destruct validated_dec as [Hk|[[Hk Ht]|[(Hk & Ht & Hm)|Hvalid]]].
    + now rewrite call_missing_key.
    + now rewrite call_missing_text.
    + now rewrite call_unsupported_model.
    + rewrite run_validated by assumption. cbn [fst].
      destruct (sdk history request) as [[response|]|reason];
        cbn [after_await]; try discriminate.
      destruct (inline_audio response) as [d|]; [|discriminate].
      destruct (truthy d) eqn:Hd; [|discriminate].
      intros [= <- _ _]. now apply truthy_true.
Qed.

End Requester.

Lemma demo_validated : validated "key" "kya kar rhi ho meenakshi" None.
Proof. repeat split; discriminate. Qed.

Lemma validation_short_circuits_witness :
  fails_without_call
    (@convertTextToSpeech reference_buffer "" "" (Some "gemini-pro")
       None None None None None)
    "Missing keys"
  /\ fails_without_call
       (@convertTextToSpeech reference_buffer "key" "" (Some "gemini-pro")
          None None None None None)
       "Missing textMessage."
  /\ fails_without_call
       (@convertTextToSpeech reference_buffer "key" "hello"
          (Some "gemini-pro") None None None None None)
       "Internal Server Error, Try again after some time".
Proof.
  split; [|split].
  - apply (proj1 (@validation_short_circuits reference_buffer "" ""
                    (Some "gemini-pro") None None None None None)).
    reflexivity.
  - apply (proj1 (proj2 (@validation_short_circuits reference_buffer "key" ""
                           (Some "gemini-pro") None None None None None)));
      [discriminate|reflexivity].
  - apply (proj2 (proj2 (@validation_short_circuits reference_buffer "key"
                           "hello" (Some "gemini-pro")
                           None None None None None)));
      discriminate.
Defined.


Lemma never_throws_witness :
  fst (run (Fixtures.answering (Throw (HostError "fetch failed")))
         [] (Fixtures.demo_call "key"))
  = Normal (Failure "Failed to generate audio.").
Proof.
  apply (proj1 (proj2 (@never_throws reference_buffer "key"
                         "kya kar rhi ho meenakshi" None None None None None
                         None
                         (Fixtures.answering (Throw (HostError "fetch failed")))
                         []))
           demo_validated (HostError "fetch failed")).
  reflexivity.
Defined.

Lemma config_echoes_arguments_witness :
  exists audioConfig,
    fst (run (Fixtures.answering
                (Normal (Some (Fixtures.response_with (Some "SGVsbG8=")))))
           []
           (@convertTextToSpeech reference_buffer "key" "hello" None
              (Some "Kore") (Some 2) (Some 48000) (Some 3) (Some 24)))
    = Normal (Success "SGVsbG8=" ["H"; "e"; "l"; "l"; "o"]%byte audioConfig)
    /\ audioConfig
       = {| TextToSpeech.channels := 2; TextToSpeech.sampleRate := 48000;
            TextToSpeech.sampleWidth := 3; TextToSpeech.bitDepth := 24;
            voice := "Kore" |}.
Proof.
  eexists. split; [reflexivity|].
  apply (@config_echoes_arguments reference_buffer "key" "hello" None
           (Some "Kore") (Some 2) (Some 48000) (Some 3) (Some 24)
           (Fixtures.answering
              (Normal (Some (Fixtures.response_with (Some "SGVsbG8=")))))
           [] "SGVsbG8=" ["H"; "e"; "l"; "l"; "o"]%byte).
  reflexivity.
Defined.

Lemma absent_payload_fails_witness :
  fst (run (Fixtures.answering (Normal (Some Fixtures.blocked_response)))
         [] (Fixtures.demo_call "key"))
  = Normal (Failure "No audio data received from the API.").
Proof.
  apply (@absent_payload_fails reference_buffer "key"
           "kya kar rhi ho meenakshi" None None None None None None
           (Fixtures.answering (Normal (Some Fixtures.blocked_response)))
           [] Fixtures.blocked_response demo_validated eq_refl).
  apply no_candidates. reflexivity.
Defined.

Lemma empty_payload_fails_witness :
  fst (run (Fixtures.answering
              (Normal (Some (Fixtures.response_with (Some "")))))
         [] (Fixtures.demo_call "key"))
  = Normal (Failure "No audio data received from the API.").
Proof.
  apply (proj1 (@empty_payload_fails reference_buffer "key"
                  "kya kar rhi ho meenakshi" None None None None None None
                  (Fixtures.answering
                     (Normal (Some (Fixtures.response_with (Some "")))))
                  [])
           (Fixtures.response_with (Some "")) demo_validated eq_refl eq_refl).
Defined.

(** * The demo driver, end to end *)

Section DemoRun.
Context `{BufferApi}.
Variables (sdk : Upstream) (fs : FileSystem).

Lemma testTTS_without_key : Demo.testTTS None sdk fs = (Normal tt, fs).
Proof. reflexivity. Qed.

Lemma testTTS_saves_audio (key : string)
    (response : GenerateContentResponse) (P : string) :
  key <> "" ->
  sdk [] (request_of key "kya kar rhi ho meenakshi" None None)
  = Normal (Some response) ->
  inline_audio response = Some P ->
  P <> "" ->
  Demo.testTTS (Some key) sdk fs
  = saveWaveFile "test_output.wav" (Buffer_from_base64 P)
      (Some 1) (Some 24000) (Some 2) fs.
Proof.
  intros Hkey Hsdk Hpayload HP.
  pose proof Hkey as Htruthy. apply truthy_true in Htruthy.
  apply truthy_true in HP.
  unfold Demo.testTTS. rewrite Htruthy.
  rewrite run_validated by (repeat split; [assumption|discriminate]).
  cbn [fst]. rewrite Hsdk. cbn [after_await]. rewrite Hpayload, HP.
  reflexivity.
Qed.


End DemoRun.

(** * More about the speech requester *)

Section RequesterTraffic.
Context `{BufferApi}.
Variables (GEMINI_API_KEY textMessage : string).
Variables (modelName outputAudioVoiceName : option string).
Variables (outputAudioChannels outputAudioRate : option Z).
Variables (outputAudioSampleWidth outputAudioBitDepth : option Z).

Local Abbreviation call :=
  (convertTextToSpeech GEMINI_API_KEY textMessage modelName
     outputAudioVoiceName outputAudioChannels outputAudioRate
     outputAudioSampleWidth outputAudioBitDepth).
Local Abbreviation request :=
  (request_of GEMINI_API_KEY textMessage modelName outputAudioVoiceName).
Local Abbreviation config :=
  (requested_config outputAudioVoiceName outputAudioChannels outputAudioRate
     outputAudioSampleWidth outputAudioBitDepth).

Lemma run_not_validated (sdk : Upstream) (history : list NetCall) :
  ~ validated GEMINI_API_KEY textMessage modelName ->
  exists message,
    run sdk history call = (Normal (Failure message), history)
    /\ (message = "Missing keys" \/ message = "Missing textMessage."
        \/ message = "Internal Server Error, Try again after some time").
Proof.
  intros Hinvalid.
  destruct (validated_dec GEMINI_API_KEY textMessage modelName)
    as [Hk|[[Hk Ht]|[(Hk & Ht & Hm)|Hvalid]]].
  - rewrite call_missing_key by assumption. eexists. split; [reflexivity|].
    now left.
  - rewrite call_missing_text by assumption. eexists. split; [reflexivity|].
    right. now left.
  - rewrite call_unsupported_model by assumption.
    eexists. split; [reflexivity|]. right. now right.
  - contradiction.
Qed.

(** X1.  A call sends a request exactly when its three input checks pass,
    and then it sends one request, built from its own arguments, whatever
    the upstream answers. *)
Theorem request_sent_iff_validated (sdk : Upstream)
    (history : list NetCall) :
  (validated GEMINI_API_KEY textMessage modelName ->
   snd (run sdk history call) = history ++ [request])
  /\ (~ validated GEMINI_API_KEY textMessage modelName ->
      snd (run sdk history call) = history).
Proof.
  split.
  - intros Hvalid. now rewrite run_validated.
  - intros Hinvalid.
    destruct (run_not_validated sdk history Hinvalid) as (m & -> & _).
    reflexivity.
Qed.

(** X2.  Whatever a call adds to the request log carries the caller's
    non-empty API key, the caller's non-empty text as its single part, the
    supported model, the AUDIO modality and the requested voice (Zephyr
    when none is given). *)
Theorem sent_requests_are_well_formed (sdk : Upstream)
    (history sent : list NetCall) (client : ClientOptions)
    (params : GenerateContentParameters) :
  snd (run sdk history call) = history ++ sent ->
  (client, params) ∈ sent ->
  apiKey client = GEMINI_API_KEY /\ GEMINI_API_KEY <> ""
  /\ contents params = [[textMessage]] /\ textMessage <> ""
  /\ model params = supported_model
  /\ responseModalities params = ["AUDIO"]
  /\ voiceName params = default "Zephyr" outputAudioVoiceName.
Proof.
  intros Hlog Hin.
  destruct (validated_dec GEMINI_API_KEY textMessage modelName)
    as [Hk|[[Hk Ht]|[(Hk & Ht & Hm)|Hvalid]]].
  1-3: assert (Hinvalid : ~ validated GEMINI_API_KEY textMessage modelName)
         by (unfold validated; intros (? & ? & ?); congruence);
       destruct (run_not_validated sdk history Hinvalid) as (m & Hrun & _);
       rewrite Hrun in Hlog; cbn [snd] in Hlog;
       rewrite <- (app_nil_r history) in Hlog at 1;
       apply app_inv_head in Hlog; subst sent;
       now apply elem_of_nil in Hin.
  rewrite run_validated in Hlog by assumption. cbn [snd] in Hlog.
  apply app_inv_head in Hlog. subst sent.
  apply list_elem_of_singleton in Hin.
  destruct Hvalid as (Hk & Ht & Hm).
  unfold request_of in Hin. injection Hin as Hclient Hparams.
  subst client params. cbn. repeat split; assumption.
Qed.

(** X3.  A failure result carries one of five messages and no other. *)
Theorem failure_messages (sdk : Upstream) (history : list NetCall)
    (message : string) :
  fst (run sdk history call) = Normal (Failure message) ->
  message ∈ ["Missing keys"; "Missing textMessage.";
             "Internal Server Error, Try again after some time";
             "No audio data received from the API.";
             "Failed to generate audio."].
Proof.
  assert (Hdec : validated GEMINI_API_KEY textMessage modelName
                 \/ ~ validated GEMINI_API_KEY textMessage modelName).
  { unfold validated.
    destruct (validated_dec GEMINI_API_KEY textMessage modelName)
      as [Hk|[[Hk Ht]|[(Hk & Ht & Hm)|Hvalid]]];
      [right|right|right|now left]; intros (? & ? & ?); congruence. }
  destruct Hdec as [Hvalid|Hinvalid].
  - rewrite run_validated by assumption. cbn [fst].
    destruct (sdk history request) as [[response|]|reason];
      cbn [after_await].
    + destruct (inline_audio response) as [d|];
        [destruct (truthy d)|]; intros [= <-] || discriminate;
        rewrite !elem_of_cons; auto.
    + intros [= <-]. rewrite !elem_of_cons. auto 6.
    + intros [= <-]. rewrite !elem_of_cons. auto 6.
  - destruct (run_not_validated sdk history Hinvalid) as (m & -> & Hm).
    cbn [fst]. intros [= <-].
    rewrite !elem_of_cons. destruct Hm as [ -> | [ -> | -> ] ]; auto.
Qed.


(** X5.  Only the first part of the first candidate is read: candidates
    after the first and parts after the first do not change the result. *)
Theorem later_candidates_and_parts_ignored (sdk sdk' : Upstream)
    (history history' : list NetCall)
    (part : Part) (parts parts' : list Part)
    (candidates candidates' : list Candidate) :
  sdk history request
  = Normal (Some {| TextToSpeech.candidates :=
                      Some ({| content :=
                                 Some {| TextToSpeech.parts :=
                                           Some (part :: parts) |} |}
                            :: candidates) |}) ->
  sdk' history' request
  = Normal (Some {| TextToSpeech.candidates :=
                      Some ({| content :=
                                 Some {| TextToSpeech.parts :=
                                           Some (part :: parts') |} |}
                            :: candidates') |}) ->
  fst (run sdk history call) = fst (run sdk' history' call).
Proof.
  intros Hsdk Hsdk'.
  destruct (validated_dec GEMINI_API_KEY textMessage modelName)
    as [Hk|[[Hk Ht]|[(Hk & Ht & Hm)|Hvalid]]].
  - now rewrite call_missing_key.
  - now rewrite call_missing_text.
  - now rewrite call_unsupported_model.
  - rewrite !run_validated by assumption. cbn [fst].
    rewrite Hsdk, Hsdk'. reflexivity.
Qed.

(** X6.  The voice reported in a success result is the voice that was
    sent in the call's request. *)
Theorem reported_voice_was_requested (sdk : Upstream)
    (history : list NetCall) (audioBase64 : string)
    (audioBuffer : list byte) (audioConfig : AudioConfig) :
  fst (run sdk history call)
  = Normal (Success audioBase64 audioBuffer audioConfig) ->
  exists client params,
    snd (run sdk history call) = history ++ [(client, params)]
    /\ voiceName params = voice audioConfig.
Proof.
  destruct (validated_dec GEMINI_API_KEY textMessage modelName)
    as [Hk|[[Hk Ht]|[(Hk & Ht & Hm)|Hvalid]]].
  - now rewrite call_missing_key.
  - now rewrite call_missing_text.
  - now rewrite call_unsupported_model.
  - rewrite run_validated by assumption. cbn [fst snd].
    destruct (sdk history request) as [[response|]|reason];
      cbn [after_await]; try discriminate.
    destruct (inline_audio response) as [d|]; [|discriminate].
    destruct (truthy d); [|discriminate].
    intros [= _ _ <-]. eexists _, _. split; reflexivity.
Qed.

End RequesterTraffic.

(** * More about the WAV encoder *)

Section EncoderBehaviour.
Variables (filename : string) (pcm : list byte).
Variables (channels rate sampleWidth : option Z).
Variable fs : FileSystem.

Lemma saveWaveFile_other (other : string) :
  other <> filename ->
  snd (saveWaveFile filename pcm channels rate sampleWidth fs) !! other
  = fs !! other.
Proof.
  intros Hother. rewrite saveWaveFile_eq. cbv zeta.
  destruct (header_in_range _ _); cbn [snd]; [|reflexivity].
  now apply lookup_insert_ne.
Qed.

End EncoderBehaviour.


(** * More about the demo driver *)

Section DriverBehaviour.
Context `{BufferApi}.
Variables (env_GEMINI_API_KEY : option string).
Variables (sdk : Upstream) (fs : FileSystem).

Local Abbreviation demo_text := "kya kar rhi ho meenakshi"%string.

Lemma testTTS_cases :
  Demo.testTTS env_GEMINI_API_KEY sdk fs = (Normal tt, fs)
  \/ exists key response P,
      env_GEMINI_API_KEY = Some key /\ key <> ""
      /\ sdk [] (request_of key demo_text None None) = Normal (Some response)
      /\ inline_audio response = Some P /\ P <> ""
      /\ Demo.testTTS env_GEMINI_API_KEY sdk fs
         = saveWaveFile "test_output.wav" (Buffer_from_base64 P)
             (Some 1) (Some 24000) (Some 2) fs.
Proof.
  destruct env_GEMINI_API_KEY as [key|]; [|now left].
  destruct (truthy key) eqn:Hkey.
  - apply truthy_true in Hkey.
    destruct (sdk [] (request_of key demo_text None None))
      as [[response|]|reason] eqn:Hsdk.
    + destruct (inline_audio response) as [P|] eqn:Hpayload.
      * destruct (truthy P) eqn:HP.
        -- right. exists key, response, P. apply truthy_true in HP.
           repeat (split; [assumption || reflexivity|]).
           now apply testTTS_saves_audio with (response := response).
        -- left. apply truthy_true in Hkey. unfold Demo.testTTS.
           rewrite Hkey.
           rewrite run_validated
             by (repeat split; [now apply truthy_true|discriminate]).
           cbn [fst]. rewrite Hsdk. cbn [after_await].
           now rewrite Hpayload, HP.
      * left. apply truthy_true in Hkey. unfold Demo.testTTS. rewrite Hkey.
        rewrite run_validated
          by (repeat split; [now apply truthy_true|discriminate]).
        cbn [fst]. rewrite Hsdk. cbn [after_await]. now rewrite Hpayload.
    + left. apply truthy_true in Hkey. unfold Demo.testTTS. rewrite Hkey.
      rewrite run_validated
        by (repeat split; [now apply truthy_true|discriminate]).
      cbn [fst]. now rewrite Hsdk.
    + left. apply truthy_true in Hkey. unfold Demo.testTTS. rewrite Hkey.
      rewrite run_validated
        by (repeat split; [now apply truthy_true|discriminate]).
      cbn [fst]. now rewrite Hsdk.
  - left. unfold Demo.testTTS. rewrite Hkey. reflexivity.
Qed.

(** X14.  Whatever the environment and the upstream do, [testTTS] leaves
    every path other than test_output.wav as it was. *)
Theorem testTTS_touches_only_test_output (other : string) :
  other <> "test_output.wav" ->
  snd (Demo.testTTS env_GEMINI_API_KEY sdk fs) !! other = fs !! other.
Proof.
  intros Hother.
  destruct testTTS_cases as [->|(key & response & P & _ & _ & _ & _ & _ & ->)].
  - reflexivity.
  - now apply saveWaveFile_other.
Qed.

(** X15.  Unless a non-empty key is set and the upstream answers the demo
    request with a non-empty payload, [testTTS] resolves and writes
    nothing: a missing or empty key, a rejected request and a response
    without audio all leave the file system as it was. *)
Theorem testTTS_without_audio_writes_nothing :
  (forall key response P,
      env_GEMINI_API_KEY = Some key ->
      key <> "" ->
      sdk [] (request_of key demo_text None None) = Normal (Some response) ->
      inline_audio response = Some P ->
      P = "") ->
  Demo.testTTS env_GEMINI_API_KEY sdk fs = (Normal tt, fs).
Proof.
  intros Hnone.
  destruct testTTS_cases
    as [->|(key & response & P & Henv & Hkey & Hsdk & Hpayload & HP & _)].
  - reflexivity.
  - now specialize (Hnone key response P Henv Hkey Hsdk Hpayload).
Qed.

End DriverBehaviour.

(** * From the request to the file *)

Section Pipeline.
Context `{BufferApi}.
Variables (GEMINI_API_KEY textMessage : string).
Variables (modelName outputAudioVoiceName : option string).
Variables (channels rate sampleWidth : Z) (outputAudioBitDepth : option Z).
Variables (sdk : Upstream) (history : list NetCall).
Variables (fileName : string) (fs : FileSystem).


End Pipeline.

(** * The added facts at concrete inputs *)

Lemma request_sent_iff_validated_witness :
  snd (run (Fixtures.answering (Throw (HostError "fetch failed")))
         [Fixtures.demo_request "earlier"] (Fixtures.demo_call "key"))
  = [Fixtures.demo_request "earlier"; Fixtures.demo_request "key"]
  /\ snd (run (Fixtures.answering (Throw (HostError "fetch failed")))
            [Fixtures.demo_request "earlier"] (Fixtures.demo_call ""))
     = [Fixtures.demo_request "earlier"].
Proof.
  split.
  - apply (proj1 (@request_sent_iff_validated reference_buffer "key"
                    "kya kar rhi ho meenakshi" None None None None None None
                    (Fixtures.answering (Throw (HostError "fetch failed")))
                    [Fixtures.demo_request "earlier"])).
    exact demo_validated.
  - apply (proj2 (@request_sent_iff_validated reference_buffer ""
                    "kya kar rhi ho meenakshi" None None None None None None
                    (Fixtures.answering (Throw (HostError "fetch failed")))
                    [Fixtures.demo_request "earlier"])).
    intros (Hkey & _). now apply Hkey.
Defined.

Lemma sent_requests_are_well_formed_witness :
  apiKey (fst (Fixtures.demo_request "key")) = "key" /\ "key" <> ""
  /\ contents (snd (Fixtures.demo_request "key"))
     = [["kya kar rhi ho meenakshi"]]
  /\ "kya kar rhi ho meenakshi" <> ""
  /\ model (snd (Fixtures.demo_request "key")) = supported_model
  /\ responseModalities (snd (Fixtures.demo_request "key")) = ["AUDIO"]
  /\ voiceName (snd (Fixtures.demo_request "key")) = "Zephyr".
Proof.
  apply (@sent_requests_are_well_formed reference_buffer "key"
           "kya kar rhi ho meenakshi" None None None None None None
           (Fixtures.answering (Normal None)) []
           [Fixtures.demo_request "key"]
           (fst (Fixtures.demo_request "key"))
           (snd (Fixtures.demo_request "key"))).
  - reflexivity.
  - apply list_elem_of_singleton. reflexivity.
Defined.

Lemma failure_messages_witness :
  "No audio data received from the API."
  ∈ ["Missing keys"; "Missing textMessage.";
     "Internal Server Error, Try again after some time";
     "No audio data received from the API.";
     "Failed to generate audio."].
Proof.
  apply (@failure_messages reference_buffer "key"
           "kya kar rhi ho meenakshi" None None None None None None
           (Fixtures.answering (Normal (Some Fixtures.blocked_response))) []).
  reflexivity.
Defined.


Lemma later_candidates_and_parts_ignored_witness :
  fst (run (Fixtures.answering
              (Normal (Some (Fixtures.response_with (Some "SGk=")))))
         [] (Fixtures.demo_call "key"))
  = fst (run (Fixtures.answering
                (Normal
                   (Some
                      {| candidates :=
                           Some
                             [ {| content :=
                                    Some
                                      {| parts :=
                                           Some
                                             [ {| inlineData :=
                                                    Some
                                                      {| data :=
                                                           Some "SGk=" |} |};
                                               {| inlineData := None |} ] |} |};
                               {| content := None |} ] |})))
           [] (Fixtures.demo_call "key")).
Proof.
  apply (@later_candidates_and_parts_ignored reference_buffer "key"
           "kya kar rhi ho meenakshi" None None None None None None
           _ _ [] []
           {| inlineData := Some {| data := Some "SGk=" |} |}
           [] [ {| inlineData := None |} ]
           [] [ {| content := None |} ]);
    reflexivity.
Defined.

Lemma reported_voice_was_requested_witness :
  exists client params,
    snd (run (Fixtures.answering
                (Normal (Some (Fixtures.response_with (Some "SGk=")))))
           []
           (@convertTextToSpeech reference_buffer "key" "hello" None
              (Some "Kore") None None None None))
    = [(client, params)]
    /\ voiceName params = "Kore".
Proof.
  apply (@reported_voice_was_requested reference_buffer "key" "hello" None
           (Some "Kore") None None None None
           (Fixtures.answering
              (Normal (Some (Fixtures.response_with (Some "SGk=")))))
           [] "SGk=" ["H"; "i"]%byte
           (requested_config (Some "Kore") None None None None)).
  reflexivity.
Defined.



Lemma testTTS_touches_only_test_output_witness :
  snd (@Demo.testTTS reference_buffer (Some "key")
         (Fixtures.answering
            (Normal (Some (Fixtures.response_with (Some "SGVsbG8=")))))
         {["notes.txt" := ["x"]%byte]}) !! "notes.txt"
  = Some ["x"]%byte.
Proof.
  rewrite (@testTTS_touches_only_test_output reference_buffer (Some "key")
             (Fixtures.answering
                (Normal (Some (Fixtures.response_with (Some "SGVsbG8=")))))
             {["notes.txt" := ["x"]%byte]} "notes.txt")
    by discriminate.
  apply lookup_singleton_eq.
Defined.

Lemma testTTS_without_audio_writes_nothing_witness :
  @Demo.testTTS reference_buffer (Some "key")
    (Fixtures.answering (Normal (Some Fixtures.blocked_response)))
    {["notes.txt" := ["x"]%byte]}
  = (Normal tt, {["notes.txt" := ["x"]%byte]})
  /\ @Demo.testTTS reference_buffer (Some "")
       (Fixtures.answering
          (Normal (Some (Fixtures.response_with (Some "SGVsbG8=")))))
       {["notes.txt" := ["x"]%byte]}
     = (Normal tt, {["notes.txt" := ["x"]%byte]}).
Proof.
  split.
  - apply (@testTTS_without_audio_writes_nothing reference_buffer
             (Some "key")
             (Fixtures.answering (Normal (Some Fixtures.blocked_response)))
             {["notes.txt" := ["x"]%byte]}).
    intros key response P _ _ Hanswer Hpayload.
    injection Hanswer as <-. discriminate Hpayload.
  - apply (@testTTS_without_audio_writes_nothing reference_buffer (Some "")
             (Fixtures.answering
                (Normal (Some (Fixtures.response_with (Some "SGVsbG8=")))))
             {["notes.txt" := ["x"]%byte]}).
    intros key response P Henv Hkey. injection Henv as <-. now destruct Hkey.
Defined.


(** * The audio format stays with the caller *)

Section FormatIsLocal.
Context `{BufferApi}.
Variables (GEMINI_API_KEY textMessage : string).
Variables (modelName outputAudioVoiceName : option string).
Variables (sdk : Upstream) (history : list NetCall).

Local Abbreviation call_with :=
  (convertTextToSpeech GEMINI_API_KEY textMessage modelName
     outputAudioVoiceName).

(** X12.  Channel count, sample rate, sample width and bit depth are never
    sent upstream: two calls that differ only in them make the same
    request, fail alike, and on success return the same audio, each
    labelled with its own format. *)
Theorem format_is_not_sent_upstream
    (channels rate sampleWidth bitDepth : option Z)
    (channels' rate' sampleWidth' bitDepth' : option Z) :
  snd (run sdk history (call_with channels rate sampleWidth bitDepth))
  = snd (run sdk history (call_with channels' rate' sampleWidth' bitDepth'))
  /\ match fst (run sdk history
                  (call_with channels rate sampleWidth bitDepth)) with
     | Normal (Success audioBase64 audioBuffer _) =>
         fst (run sdk history
                (call_with channels' rate' sampleWidth' bitDepth'))
         = Normal (Success audioBase64 audioBuffer
                     (requested_config outputAudioVoiceName
                        channels' rate' sampleWidth' bitDepth'))
     | other =>
         fst (run sdk history
                (call_with channels' rate' sampleWidth' bitDepth'))
         = other
     end.
Proof.
  destruct (validated_dec GEMINI_API_KEY textMessage modelName)
    as [Hk|[[Hk Ht]|[(Hk & Ht & Hm)|Hvalid]]].
  - rewrite !call_missing_key by assumption. now split.
  - rewrite !call_missing_text by assumption. now split.
  - rewrite !call_unsupported_model by assumption. now split.
  - rewrite !run_validated by assumption. cbn [fst snd].
    split; [reflexivity|].
    destruct (sdk history _) as [[response|]|reason]; cbn [after_await];
      try reflexivity.
    destruct (inline_audio response) as [d|]; [|reflexivity].
    destruct (truthy d); reflexivity.
Qed.

End FormatIsLocal.

Lemma format_is_not_sent_upstream_witness :
  snd (run (Fixtures.answering (Normal None)) []
         (@convertTextToSpeech reference_buffer "key" "hello" None None
            (Some 2) (Some 48000) (Some 3) (Some 24)))
  = snd (run (Fixtures.answering (Normal None)) []
           (@convertTextToSpeech reference_buffer "key" "hello" None None
              None None None None)).
Proof.
  exact (proj1 (@format_is_not_sent_upstream reference_buffer "key" "hello"
                  None None (Fixtures.answering (Normal None)) []
                  (Some 2) (Some 48000) (Some 3) (Some 24)
                  None None None None)).
Defined.
